(** * A presence-debounced flush controller (src/main.py)

    Shallow embedding of [FlushController] and of the simulation harness
    around it, followed by the properties of the timing state machine.

    Timestamps and durations are Python [float]s in the source.  The
    controller only ever subtracts and compares them, so it is written
    once over an interface [TimeOps].  [Binary64Time] is IEEE binary64,
    what CPython computes on floats and what the loop of
    [run_simulation] always runs on; [IntTime] and [ExactTime] are the
    exact clocks a caller gets by passing [int] or [Fraction]
    timestamps to [update].  Counters are Python [int]s, hence [Z].

    The sensor and the actuator are objects of the caller: their
    methods may raise, and what they raise propagates through
    [update] and [run_simulation]. *)

From Stdlib Require Import List Bool ZArith QArith Lqa Lia Floats Sorted.
From Stdlib Require String.
Import ListNotations.

(** ** Time arithmetic *)

Class TimeOps (T : Type) := {
  tzero : T;                 (* the literal 0.0 *)
  tadd : T -> T -> T;        (* a + b *)
  tsub : T -> T -> T;        (* a - b *)
  tleb : T -> T -> bool;     (* a <= b *)
  tltb : T -> T -> bool      (* a < b *)
}.

(** Python's [a >= b] on floats is the comparison [b <= a]. *)
Definition tgeb {T} `{TimeOps T} (a b : T) : bool := tleb b a.

Declare Scope time_scope.
Delimit Scope time_scope with t.
Infix "+" := tadd : time_scope.
Infix "-" := tsub : time_scope.
Infix "<=?" := tleb (at level 70) : time_scope.
Infix "<?" := tltb (at level 70) : time_scope.
Infix ">=?" := tgeb (at level 70) : time_scope.

(** Exact rational time: [Fraction] timestamps.  Sums are kept in
    lowest terms so that the timestamps produced by a sampling loop
    stay readable. *)
#[export] Instance ExactTime : TimeOps Q := {
  tzero := 0%Q;
  tadd := fun a b => Qred (a + b);
  tsub := Qminus;
  tleb := Qle_bool;
  tltb := fun a b => negb (Qle_bool b a)
}.

(** Integer time: Python [int] timestamps, which [update] takes as
    well as floats. *)
#[export] Instance IntTime : TimeOps Z := {
  tzero := 0%Z;
  tadd := Z.add;
  tsub := Z.sub;
  tleb := Z.leb;
  tltb := Z.ltb
}.

(** IEEE 754 binary64, round to nearest even: CPython's [float]. *)
#[export] Instance Binary64Time : TimeOps float := {
  tzero := 0%float;
  tadd := PrimFloat.add;
  tsub := PrimFloat.sub;
  tleb := PrimFloat.leb;
  tltb := PrimFloat.ltb
}.


(** The two order laws the rate-limiting argument needs.  Exact
    arithmetic has them; binary64 does not. *)
Class TimeLaws (T : Type) `{TimeOps T} : Prop := {
  tleb_trans : forall a b c : T,
    (a <=? b)%t = true -> (b <=? c)%t = true -> (a <=? c)%t = true;
  tsub_mono_l : forall a b c : T,
    (a <=? b)%t = true -> (a - c <=? b - c)%t = true
}.
Arguments TimeLaws T {_}.

(** ** Data model *)

Inductive State : Set :=
| IDLE
| PRESENCE_DETECTED
| IN_USE
| WAIT_TO_FLUSH
| FLUSHING
| COOLDOWN.

Definition State_eq_dec (a b : State) : {a = b} + {a <> b}.
Proof. decide equality. Defined.

Record Config (T : Type) : Type := mkConfig {
  min_use_seconds : T;
  flush_delay_seconds : T;
  cooldown_seconds : T
}.
Arguments mkConfig {T}.
Arguments min_use_seconds {T}.
Arguments flush_delay_seconds {T}.
Arguments cooldown_seconds {T}.

Record Metrics : Set := mkMetrics {
  flush_count : Z;
  presence_events : Z
}.

(** [Metrics()] *)
Definition Metrics_init : Metrics :=
  {| flush_count := 0; presence_events := 0 |}.

(** An exception raised by a collaborator.  [ISensor] and [IActuator]
    themselves raise [NotImplementedError]; an implementation may raise
    anything. *)
Inductive exn : Set :=
| NotImplementedError
| Exception (name : String.string).

(** A call that answers: it returns a value or raises. *)
Inductive outcome (X : Type) : Type :=
| Returned (x : X)
| Raised (e : exn).
Arguments Returned {X} x.
Arguments Raised {X} e.

(** The two capabilities of the source, as interfaces.  A sensor
    answers a presence query, or raises.  An actuator is an object
    whose state a [flush] call may change: [flush a now_s] is the
    actuator after the call, and the exception the call raised, if
    any. *)
Class ISensor (T S : Type) := presence : S -> T -> outcome bool.
Class IActuator (T A : Type) := flush : A -> T -> A * option exn.

(** An actuator whose [flush] always returns. *)
Class ActuatorReturns {T A : Type} (Act : IActuator T A) : Prop :=
  flush_returns : forall (a : A) (now_s : T), snd (flush a now_s) = None.

Record FlushController (T A : Type) : Type := mkController {
  cfg : Config T;
  actuator : A;
  state : State;
  state_enter_s : T;
  presence_start_s : option T;
  metrics : Metrics
}.
Arguments mkController {T A}.
Arguments cfg {T A}.
Arguments actuator {T A}.
Arguments state {T A}.
Arguments state_enter_s {T A}.
Arguments presence_start_s {T A}.
Arguments metrics {T A}.

(** What comes out of [update] and of the loops around it besides a
    return: the failed [assert] of [update] itself, or an exception of
    the actuator or of the sensor passing through. *)
Inductive PyError : Set :=
| AssertionError
| FlushRaised (e : exn)
| PresenceRaised (e : exn).

(** A call on an object returns or raises; either way it leaves the
    object in some state. *)
Inductive result (X : Type) : Type :=
| Ok (x : X)
| Raise (e : PyError) (x : X).
Arguments Ok {X} x.
Arguments Raise {X} e x.

Definition bind {X} (r : result X) (k : X -> result X) : result X :=
  match r with
  | Ok x => k x
  | Raise e x => Raise e x
  end.

(** ** The controller *)

Section Controller.
Context {T : Type} {TO : TimeOps T}.

(** The dataclass-generated [Config.__init__]: it stores its three
    arguments; the class defines no [__post_init__]. *)
Definition Config_init (min_use flush_delay cooldown : T)
  : result (Config T) :=
  Ok {| min_use_seconds := min_use;
        flush_delay_seconds := flush_delay;
        cooldown_seconds := cooldown |}.

Context {A : Type} {Act : IActuator T A}.

Definition FlushController_init (config : Config T) (act : A)
  : FlushController T A :=
  {| cfg := config;
     actuator := act;
     state := IDLE;
     state_enter_s := tzero;
     presence_start_s := None;
     metrics := Metrics_init |}.

(** Field updates, one per attribute the source assigns. *)
Definition set_presence_start (c : FlushController T A) (v : option T) :=
  {| cfg := cfg c; actuator := actuator c; state := state c;
     state_enter_s := state_enter_s c; presence_start_s := v;
     metrics := metrics c |}.

Definition set_metrics (c : FlushController T A) (m : Metrics) :=
  {| cfg := cfg c; actuator := actuator c; state := state c;
     state_enter_s := state_enter_s c;
     presence_start_s := presence_start_s c; metrics := m |}.

Definition set_actuator (c : FlushController T A) (a : A) :=
  {| cfg := cfg c; actuator := a; state := state c;
     state_enter_s := state_enter_s c;
     presence_start_s := presence_start_s c; metrics := metrics c |}.

Definition incr_presence_events (m : Metrics) : Metrics :=
  {| flush_count := flush_count m;
     presence_events := presence_events m + 1 |}.

Definition incr_flush_count (m : Metrics) : Metrics :=
  {| flush_count := flush_count m + 1;
     presence_events := presence_events m |}.

Definition _enter (c : FlushController T A) (new_state : State) (now_s : T)
  : FlushController T A :=
  {| cfg := cfg c; actuator := actuator c; state := new_state;
     state_enter_s := now_s; presence_start_s := presence_start_s c;
     metrics := metrics c |}.

Definition update (c : FlushController T A) (now_s : T) (presence : bool)
  : result (FlushController T A) :=
  match state c with
  | IDLE =>
      if presence then
        let c := set_metrics c (incr_presence_events (metrics c)) in
        let c := set_presence_start c (Some now_s) in
        Ok (_enter c PRESENCE_DETECTED now_s)
      else Ok c
  | PRESENCE_DETECTED =>
      if negb presence then
        let c := set_presence_start c None in
        Ok (_enter c IDLE now_s)
      else
        match presence_start_s c with
        | None => Raise AssertionError c
        | Some start =>
            if (now_s - start >=? min_use_seconds (cfg c))%t
            then Ok (_enter c IN_USE now_s)
            else Ok c
        end
  | IN_USE =>
      if negb presence then Ok (_enter c WAIT_TO_FLUSH now_s) else Ok c
  | WAIT_TO_FLUSH =>
      if presence then Ok (_enter c IN_USE now_s)
      else if (now_s - state_enter_s c >=? flush_delay_seconds (cfg c))%t
           then Ok (_enter c FLUSHING now_s)
           else Ok c
  | FLUSHING =>
      match flush (actuator c) now_s with
      | (a, Some e) => Raise (FlushRaised e) (set_actuator c a)
      | (a, None) =>
          let c := set_actuator c a in
          let c := set_metrics c (incr_flush_count (metrics c)) in
          Ok (_enter c COOLDOWN now_s)
      end
  | COOLDOWN =>
      if (now_s - state_enter_s c >=? cooldown_seconds (cfg c))%t then
        let c := set_presence_start c None in
        Ok (_enter c IDLE now_s)
      else Ok c
  end.

(** A driver: the samples are fed to [update] in order; an exception
    ends the run and leaves the controller where the failing call left
    it. *)
Fixpoint run (c : FlushController T A) (samples : list (T * bool))
  : result (FlushController T A) :=
  match samples with
  | [] => Ok c
  | (now_s, p) :: rest => bind (update c now_s p) (fun c' => run c' rest)
  end.

(** [run_simulation]: the [while t <= duration_s] loop.  Nothing in
    the source bounds the number of iterations (a zero step never
    ends), so the loop is given fuel; [None] is "fuel exhausted".  The
    closing [print] of the metrics is not modelled: the controller is
    returned instead. *)
Fixpoint run_simulation {S : Type} {Sen : ISensor T S} (fuel : nat)
    (sensor : S) (controller : FlushController T A)
    (duration_s step_s t : T) : option (result (FlushController T A)) :=
  match fuel with
  | O => None
  | Datatypes.S fuel' =>
      if (t <=? duration_s)%t then
        match presence sensor t with
        | Returned p =>
            match update controller t p with
            | Ok controller' =>
                run_simulation fuel' sensor controller' duration_s step_s
                               (t + step_s)%t
            | Raise e controller' => Some (Raise e controller')
            end
        | Raised e => Some (Raise (PresenceRaised e) controller)
        end
      else Some (Ok controller)
  end.

End Controller.

(** [ScriptedSensor]: presence holds inside any of the half-open
    intervals. *)
Record ScriptedSensor (T : Type) : Type := mkScriptedSensor {
  intervals : list (T * T)
}.
Arguments mkScriptedSensor {T}.
Arguments intervals {T}.

#[export] Instance ScriptedSensor_presence {T} `{TimeOps T}
  : ISensor T (ScriptedSensor T) :=
  fun self now_s =>
    Returned
      (existsb (fun '(start, stop) => (start <=? now_s)%t && (now_s <? stop)%t)
               (intervals self)).

(** [ConsoleActuator]: every [flush] prints one line built from its
    argument, and returns.  The model keeps the arguments of the calls
    made so far, oldest first; the text of the line, which shows the
    argument rounded to one decimal, is not modelled. *)
Definition ConsoleActuator (T : Type) : Type := list T.

#[export] Instance ConsoleActuator_flush {T} : IActuator T (ConsoleActuator T) :=
  fun console now_s => (console ++ [now_s], None).

#[export] Instance ConsoleActuator_returns {T}
  : ActuatorReturns (@ConsoleActuator_flush T) :=
  fun console now_s => eq_refl.

(** The classes [ISensor] and [IActuator] used as they are: their
    methods raise [NotImplementedError]. *)
Inductive ISensor_base : Set := ISensor_init.
Inductive IActuator_base : Set := IActuator_init.

#[export] Instance ISensor_base_presence {T} : ISensor T ISensor_base :=
  fun self now_s => Raised NotImplementedError.

#[export] Instance IActuator_base_flush {T} : IActuator T IActuator_base :=
  fun self now_s => (self, Some NotImplementedError).

(** [ConsoleActuator()]: nothing printed yet. *)
Definition ConsoleActuator_init {T} : ConsoleActuator T := [].

(** ** The [__main__] scenario, at both clocks *)

(** The scenario with exact decimal timestamps, for comparison: the
    program itself runs the one of [Binary64] below. *)
Module Exact.
Open Scope Q_scope.

(** [Config()]: the dataclass defaults. *)
Definition Config_default : result (Config Q) := Config_init 2.0 1.0 8.0.

Definition cfg : Config Q :=
  {| min_use_seconds := 2.0; flush_delay_seconds := 1.0;
     cooldown_seconds := 8.0 |}.

Definition sensor : ScriptedSensor Q :=
  {| intervals := [(1.0, 1.6); (5.0, 9.0); (12.0, 12.3)] |}.

Definition controller : FlushController Q (ConsoleActuator Q) :=
  FlushController_init cfg ConsoleActuator_init.

(** [run_simulation(sensor, controller, duration_s, step_s=0.1)] *)
Definition simulate (fuel : nat) (duration_s : Q) :=
  run_simulation fuel sensor controller duration_s 0.1 0.0.

Definition main (fuel : nat) := simulate fuel 25.0.
End Exact.

Module Binary64.
Open Scope float_scope.
#[local] Set Warnings "-inexact-float".

Definition Config_default : result (Config float) := Config_init 2.0 1.0 8.0.

Definition cfg : Config float :=
  {| min_use_seconds := 2.0; flush_delay_seconds := 1.0;
     cooldown_seconds := 8.0 |}.

Definition sensor : ScriptedSensor float :=
  {| intervals := [(1.0, 1.6); (5.0, 9.0); (12.0, 12.3)] |}.

Definition controller : FlushController float (ConsoleActuator float) :=
  FlushController_init cfg ConsoleActuator_init.

Definition simulate (fuel : nat) (duration_s : float) :=
  run_simulation fuel sensor controller duration_s 0.1 0.0.

Definition main (fuel : nat) := simulate fuel 25.0.
End Binary64.

(** ** What the properties are stated with *)

Section Observations.
Context {T : Type} {TO : TimeOps T} {A : Type} {Act : IActuator T A}.
Implicit Types (c : FlushController T A) (now_s : T).

(** The relation the code maintains between the state tag and the
    optional onset timestamp. *)
Definition onset_inv c : Prop :=
  state c = IDLE <-> presence_start_s c = None.

(** How a run ends when the assertion holds: it returns, or it stops
    at an exception of the actuator; [c] is the controller it leaves. *)
Definition ends_in (r : result (FlushController T A)) c : Prop :=
  r = Ok c \/ exists e, r = Raise (FlushRaised e) c.

(** Samples that all carry the same presence value. *)
Definition present (ts : list T) : list (T * bool) :=
  map (fun t => (t, true)) ts.
Definition absent (ts : list T) : list (T * bool) :=
  map (fun t => (t, false)) ts.

(** The controllers a caller sees after each call of a run. *)
Fixpoint history c (samples : list (T * bool)) : list (FlushController T A) :=
  match samples with
  | [] => []
  | (now_s, p) :: rest =>
      match update c now_s p with
      | Ok c' => c' :: history c' rest
      | Raise _ _ => []
      end
  end.

(** What the phases of an episode may change: nothing but the state
    tag and its entry time. *)
Definition same_books c c' : Prop :=
  cfg c' = cfg c /\ actuator c' = actuator c /\ metrics c' = metrics c.

End Observations.

(** The samples of one episode that starts at [p0], stays present at
    [ps] and goes absent at [a]. *)
Definition short_episode {T} (p0 : T) (ps : list T) (a : T) : list (T * bool) :=
  present (p0 :: ps) ++ absent [a].

(** The two phases of a real use: presence from [p0] to [plast], then
    absence from [a0] up to the sample [aj]. *)
Definition use_phase {T} (p0 : T) (ps : list T) (plast : T) : list (T * bool) :=
  present (p0 :: ps ++ [plast]).
Definition wait_phase {T} (a0 : T) (as1 : list T) (aj : T) : list (T * bool) :=
  absent (a0 :: as1 ++ [aj]).

(** Timestamps that never go back. *)
Definition nondecreasing {T} {TO : TimeOps T} (samples : list (T * bool)) : Prop :=
  Sorted (fun a b => (a <=? b)%t = true) (map fst samples).

Section Console.
Context {T : Type} {TO : TimeOps T}.
Implicit Types (c : FlushController T (ConsoleActuator T)) (log : list T).




End Console.

(** ** Concrete controllers used as test points *)

Module Points.
Open Scope Q_scope.

(** The default configuration, two seconds of presence, then absence
    sampled at 3 and 4: the delay of one second has elapsed. *)
Definition use_then_leave : list (Q * bool) :=
  [(0, true); (2, true); (3, false); (4, false)].

Definition flushing : FlushController Q (ConsoleActuator Q) :=
  {| cfg := Exact.cfg; actuator := []; state := FLUSHING;
     state_enter_s := 4; presence_start_s := Some 0;
     metrics := {| flush_count := 0; presence_events := 1 |} |}.

(** The same wait, with the class [IActuator] itself as actuator. *)
Definition waiting_base : FlushController Q IActuator_base :=
  {| cfg := Exact.cfg; actuator := IActuator_init; state := WAIT_TO_FLUSH;
     state_enter_s := 3; presence_start_s := Some 0;
     metrics := {| flush_count := 0; presence_events := 1 |} |}.

Definition flushing_base : FlushController Q IActuator_base :=
  _enter waiting_base FLUSHING 4.

Definition cooling : FlushController Q (ConsoleActuator Q) :=
  {| cfg := Exact.cfg; actuator := [5]; state := COOLDOWN;
     state_enter_s := 5; presence_start_s := Some 0;
     metrics := {| flush_count := 1; presence_events := 1 |} |}.
End Points.


(** A use at 0.1 and, after an absent sample at 8.1 that ends the
    cooldown, another use at 8.1. *)
#[local] Set Warnings "-inexact-float".

(** Two real uses, far enough apart for both to flush. *)
Definition two_uses : list (Q * bool) :=
  (present [0; 2] ++ absent [3; 4; 5; 13] ++
   present [14; 16] ++ absent [17; 18; 19])%Q.

(** ** Notions for the rest of the code *)

Section Sampling.
Context {T : Type} {TO : TimeOps T}.

(** The timestamps the loop of [run_simulation] visits: [t], [t +
    step_s], ... while [t <= duration_s]; [None] when the fuel runs out
    first. *)
Fixpoint sample_times (fuel : nat) (duration_s step_s t : T)
  : option (list T) :=
  match fuel with
  | O => None
  | Datatypes.S fuel' =>
      if (t <=? duration_s)%t then
        option_map (cons t)
                   (sample_times fuel' duration_s step_s (t + step_s)%t)
      else Some []
  end.

(** The sensor returned the answers [ps] at the timestamps [ts]. *)
Definition answers {S : Type} {Sen : ISensor T S} (sensor : S)
    (ts : list T) (ps : list bool) : Prop :=
  Forall2 (fun t p => presence sensor t = Returned p) ts ps.

(** Samples in which no absence directly follows another one. *)
Fixpoint isolated_absences (samples : list (T * bool)) : bool :=
  match samples with
  | [] => true
  | (_, p) :: rest =>
      match rest with
      | (_, q) :: _ => (p || q) && isolated_absences rest
      | [] => true
      end
  end.

End Sampling.

(** The arrows of the state diagram. *)
Definition transition (a b : State) : bool :=
  match a, b with
  | IDLE, PRESENCE_DETECTED
  | PRESENCE_DETECTED, IDLE
  | PRESENCE_DETECTED, IN_USE
  | IN_USE, WAIT_TO_FLUSH
  | WAIT_TO_FLUSH, IN_USE
  | WAIT_TO_FLUSH, FLUSHING
  | FLUSHING, COOLDOWN
  | COOLDOWN, IDLE => true
  | _, _ => false
  end.

(** How far a state is along the way to the next flush.  COOLDOWN is
    one step short of IDLE. *)
Definition progress (s : State) : Z :=
  match s with
  | IDLE => 0
  | PRESENCE_DETECTED => 1
  | IN_USE => 2
  | WAIT_TO_FLUSH => 3
  | FLUSHING => 4
  | COOLDOWN => -1
  end.

(** The states in which a presence episode is being followed. *)
Definition following (s : State) : bool :=
  match s with
  | IDLE | COOLDOWN => false
  | _ => true
  end.

(** The states reached only through a confirmed use. *)
Definition confirmed (s : State) : bool :=
  match s with
  | IN_USE | WAIT_TO_FLUSH | FLUSHING | COOLDOWN => true
  | _ => false
  end.

(** [l1] is [l2] with some elements left out. *)
Inductive subseq {X : Type} : list X -> list X -> Prop :=
| subseq_nil : subseq [] []
| subseq_skip (x : X) (l1 l2 : list X) : subseq l1 l2 -> subseq l1 (x :: l2)
| subseq_take (x : X) (l1 l2 : list X) :
    subseq l1 l2 -> subseq (x :: l1) (x :: l2).

(** Once a use is confirmed, the recorded onset lies at least
    [min_use_seconds] before [lo]. *)
Definition min_use_inv {T} {TO : TimeOps T} {A}
    (lo : T) (c : FlushController T A) : Prop :=
  confirmed (state c) = true ->
  exists p0, presence_start_s c = Some p0 /\
    (lo - p0 >=? min_use_seconds (cfg c))%t = true.

(** Presence with single-sample dropouts, under zero thresholds. *)
Definition flicker : list (Q * bool) :=
  [(0, true); (1, true); (2, false); (3, true); (4, false); (5, true)]%Q.

(** * Proofs *)

(** The exact clock obeys the order laws. *)
#[export] Instance ExactTimeLaws : TimeLaws Q.
Proof.
  split; cbn; intros a b c.
  - rewrite !Qle_bool_iff. apply Qle_trans.
  - rewrite !Qle_bool_iff. intros Hab. lra.
Qed.

(** So does the integer clock. *)
#[export] Instance IntTimeLaws : TimeLaws Z.
Proof.
  split; cbn; intros a b c; rewrite !Z.leb_le; lia.
Qed.

(** Binary64 does not: infinity is below itself, but the difference of
    two infinities is not a number and compares with nothing. *)
Lemma Binary64_no_TimeLaws : ~ TimeLaws float.
Proof.
  intros [_ Hmono].
  specialize (Hmono infinity infinity infinity eq_refl).
  vm_compute in Hmono. discriminate.
Qed.

(** The classes [ISensor] and [IActuator] used as they are: the
    simulation stops at its first sample, the controller untouched; a
    controller in FLUSHING stays there. *)
Example simulation_with_ISensor_base :
  run_simulation 10 ISensor_init Binary64.controller 25%float 0.1%float
                 0%float =
    Some (Raise (PresenceRaised NotImplementedError) Binary64.controller).
Proof. reflexivity. Qed.

Example flush_with_IActuator_base :
  run Points.flushing_base [(5, false); (6, true)]%Q =
    Raise (FlushRaised NotImplementedError) Points.flushing_base.
Proof. reflexivity. Qed.

(** ** Properties of one [update] call *)

(** Case analysis along the branches of [update]. *)
Ltac update_branches c p :=
  unfold update;
  destruct (state c) eqn:?; destruct p; cbn [negb];
  repeat match goal with
         | |- context [match presence_start_s c with _ => _ end] =>
             destruct (presence_start_s c) eqn:?
         | |- context [flush ?a ?t] =>
             destruct (flush a t) as [? [?|]] eqn:?
         | |- context [if ?b then _ else _] => destruct b eqn:?
         end.

(** Projections of the controllers the branches build. *)
Ltac fields :=
  cbn [state metrics actuator cfg state_enter_s presence_start_s
       flush_count presence_events _enter set_metrics set_actuator
       set_presence_start incr_flush_count incr_presence_events
       progress following confirmed] in *.

Section StepFacts.
Context {T : Type} {TO : TimeOps T} {A : Type} {Act : IActuator T A}.
Implicit Types (c : FlushController T A) (now_s : T) (p : bool).

Lemma onset_inv_init (config : Config T) (act : A) :
  onset_inv (FlushController_init config act).
Proof. unfold onset_inv; cbn; tauto. Qed.

(** What a call that raises has done: nothing, or nothing but the
    failed [flush]. *)
Lemma update_raise_cases c now_s p (e : PyError) c' :
  update c now_s p = Raise e c' ->
  (e = AssertionError /\ c' = c /\ state c = PRESENCE_DETECTED /\
   p = true /\ presence_start_s c = None) \/
  (exists x a, e = FlushRaised x /\ state c = FLUSHING /\
     flush (actuator c) now_s = (a, Some x) /\ c' = set_actuator c a).
Proof.
  update_branches c p; intros E; inversion E; subst; eauto 10.
Qed.

Lemma update_ok_onset_inv c now_s p c' :
  onset_inv c -> update c now_s p = Ok c' -> onset_inv c'.
Proof.
  unfold onset_inv. intros Hinv. revert c'.
  update_branches c p; intros c' E; inversion E; subst; fields;
    try match goal with H : state _ = _ |- _ => rewrite H in * end;
    intuition congruence.
Qed.

Lemma update_never_asserts c now_s p c' :
  onset_inv c -> update c now_s p <> Raise AssertionError c'.
Proof.
  intros Hinv E. destruct (update_raise_cases _ _ _ _ _ E)
    as [(_ & _ & Hst & _ & Hs)|(x & a & Hx & _)]; [|discriminate].
  apply Hinv in Hs. congruence.
Qed.

Lemma update_raise_onset_inv c now_s p (e : PyError) c' :
  onset_inv c -> update c now_s p = Raise e c' ->
  onset_inv c' /\ exists x, e = FlushRaised x.
Proof.
  intros Hinv E. destruct (update_raise_cases _ _ _ _ _ E)
    as [(_ & _ & Hst & _ & Hs)|(x & a & -> & _ & _ & ->)].
  - apply Hinv in Hs. congruence.
  - split; [exact Hinv | eauto].
Qed.

(** A call returns unless the assertion fails or [flush] raises. *)
Lemma update_returns c now_s p :
  onset_inv c ->
  (state c = FLUSHING -> snd (flush (actuator c) now_s) = None) ->
  exists c', update c now_s p = Ok c'.
Proof.
  intros Hinv Hfl. destruct (update c now_s p) as [c'|e c'] eqn:E; [eauto|].
  exfalso. destruct (update_raise_cases _ _ _ _ _ E)
    as [(_ & _ & Hst & _ & Hs)|(x & a & _ & Hst & Hf & _)].
  - apply Hinv in Hs. congruence.
  - specialize (Hfl Hst). rewrite Hf in Hfl. discriminate.
Qed.

Lemma update_onset_inv {Ret : ActuatorReturns Act} c now_s p :
  onset_inv c ->
  exists c', update c now_s p = Ok c' /\ onset_inv c'.
Proof.
  intros Hinv.
  destruct (update_returns c now_s p Hinv) as (c' & E).
  { intros _. apply flush_returns. }
  exists c'. split; [exact E|]. exact (update_ok_onset_inv _ _ _ _ Hinv E).
Qed.

Lemma run_onset_inv {Ret : ActuatorReturns Act} samples : forall c,
  onset_inv c ->
  exists c', run c samples = Ok c' /\ onset_inv c'.
Proof.
  induction samples as [|[now_s p] rest IH]; intros c Hc; cbn.
  - eauto.
  - destruct (update_onset_inv c now_s p Hc) as (c1 & -> & Hc1). cbn. auto.
Qed.

(** Every run from a sound controller ends, and never at the
    assertion. *)
Lemma run_ends samples : forall c,
  onset_inv c ->
  exists c', ends_in (run c samples) c' /\ onset_inv c'.
Proof.
  induction samples as [|[now_s p] rest IH]; intros c Hc; cbn [run].
  - exists c. split; [left; reflexivity | exact Hc].
  - destruct (update c now_s p) as [c1|e c1] eqn:E; cbn [bind].
    + apply IH. exact (update_ok_onset_inv _ _ _ _ Hc E).
    + destruct (update_raise_onset_inv _ _ _ _ _ Hc E) as (Hc1 & x & ->).
      exists c1. split; [right; eauto | exact Hc1].
Qed.

Lemma ends_in_returns {Ret : ActuatorReturns Act} samples c c' :
  onset_inv c -> ends_in (run c samples) c' -> run c samples = Ok c'.
Proof.
  intros Hc [E|(e & E)]; [exact E|].
  destruct (run_onset_inv samples c Hc) as (c1 & E1 & _). congruence.
Qed.

Lemma run_app s1 : forall c s2,
  run c (s1 ++ s2) = bind (run c s1) (fun c' => run c' s2).
Proof.
  induction s1 as [|[now_s p] rest IH]; intros c s2; cbn; [reflexivity|].
  destruct (update c now_s p); cbn; auto.
Qed.

Lemma run_app_ok s1 s2 c c1 :
  run c s1 = Ok c1 -> run c (s1 ++ s2) = run c1 s2.
Proof. intros E. rewrite run_app, E. reflexivity. Qed.

Lemma run_step_ok c now_s p c1 rest :
  update c now_s p = Ok c1 -> run c ((now_s, p) :: rest) = run c1 rest.
Proof. intros E. cbn. rewrite E. reflexivity. Qed.

(** The configuration is never written after construction. *)
Lemma update_cfg c now_s p c' :
  update c now_s p = Ok c' -> cfg c' = cfg c.
Proof.
  revert c'. update_branches c p; intros c' E; inversion E; reflexivity.
Qed.

(** Any call made in FLUSHING invokes the actuator once, whatever the
    sample; it lands in COOLDOWN if [flush] returns and stays where it
    is if [flush] raises. *)
Lemma update_FLUSHING c now_s p :
  state c = FLUSHING ->
  update c now_s p =
    match flush (actuator c) now_s with
    | (a, Some e) => Raise (FlushRaised e) (set_actuator c a)
    | (a, None) =>
        Ok (_enter (set_metrics (set_actuator c a)
                                (incr_flush_count (metrics c)))
                   COOLDOWN now_s)
    end.
Proof. unfold update. intros ->. reflexivity. Qed.

Lemma update_FLUSHING_returns {Ret : ActuatorReturns Act} c now_s p :
  state c = FLUSHING ->
  update c now_s p =
    Ok (_enter (set_metrics (set_actuator c (fst (flush (actuator c) now_s)))
                            (incr_flush_count (metrics c)))
               COOLDOWN now_s).
Proof.
  intros Hst. rewrite (update_FLUSHING _ now_s p Hst).
  pose proof (flush_returns (actuator c) now_s) as H.
  destruct (flush (actuator c) now_s) as [a [e|]]; [discriminate|reflexivity].
Qed.

(** Outside FLUSHING a call leaves the actuator and [flush_count]
    alone. *)
Lemma update_quiet c now_s p c' :
  state c <> FLUSHING ->
  update c now_s p = Ok c' ->
  actuator c' = actuator c /\
  flush_count (metrics c') = flush_count (metrics c).
Proof.
  intros Hst. revert c'.
  update_branches c p; try congruence;
    intros c' E; inversion E; cbn; auto.
Qed.

(** A call that returns in FLUSHING started in WAIT_TO_FLUSH. *)
Lemma update_into_FLUSHING c now_s p c' :
  update c now_s p = Ok c' ->
  state c' = FLUSHING ->
  state c = WAIT_TO_FLUSH.
Proof.
  revert c'. update_branches c p;
    intros c' E; inversion E; subst; cbn; congruence.
Qed.

Lemma update_presence_events_mono c now_s p c' :
  update c now_s p = Ok c' ->
  (presence_events (metrics c) <= presence_events (metrics c'))%Z.
Proof.
  revert c'. update_branches c p;
    intros c' E; inversion E; cbn; lia.
Qed.

End StepFacts.

(** ** FLUSHING (C1) *)

(** C1, as stated, fails: after the call that finds the flush delay
    elapsed the controller rests in FLUSHING and the actuator has not
    been invoked. *)
Lemma FLUSHING_observed_between_calls :
  run Exact.controller Points.use_then_leave = Ok Points.flushing.
Proof. reflexivity. Qed.

(** C1 (amended): FLUSHING is observed between calls.  A call that
    returns in FLUSHING was dispatched on WAIT_TO_FLUSH with an absent
    sample and an elapsed flush delay, and invoked nothing.  The next
    call, whatever its sample, invokes the actuator once with its own
    timestamp.  If that invocation returns, the call counts the flush
    and returns in COOLDOWN; if it raises, the exception leaves
    [update] and the controller is still in FLUSHING, its entry time
    and its metrics as they were. *)
Theorem FLUSHING_rests_one_call
    {T} {TO : TimeOps T} {A} {Act : IActuator T A}
    (c c' : FlushController T A) (now_s : T) (p : bool) :
  update c now_s p = Ok c' ->
  state c' = FLUSHING ->
  (state c = WAIT_TO_FLUSH /\ p = false /\
   (now_s - state_enter_s c >=? flush_delay_seconds (cfg c))%t = true /\
   actuator c' = actuator c /\ metrics c' = metrics c) /\
  forall (now_s' : T) (p' : bool),
    match flush (actuator c') now_s' with
    | (a, None) =>
        exists c'', update c' now_s' p' = Ok c'' /\
          state c'' = COOLDOWN /\ state_enter_s c'' = now_s' /\
          actuator c'' = a /\
          flush_count (metrics c'') = (flush_count (metrics c') + 1)%Z
    | (a, Some e) =>
        exists c'', update c' now_s' p' = Raise (FlushRaised e) c'' /\
          state c'' = FLUSHING /\ state_enter_s c'' = state_enter_s c' /\
          actuator c'' = a /\
          metrics c'' = metrics c'
    end.
Proof.
  intros Hup Hst'. split.
  - pose proof (update_into_FLUSHING _ _ _ _ Hup Hst') as Hst.
    revert Hup. unfold update. rewrite Hst.
    destruct p; cbn.
    + intros E; inversion E; subst; discriminate.
    + destruct (_ >=? _)%t eqn:Hge; intros E; inversion E; subst; cbn in *;
        [auto | congruence].
  - intros now_s' p'. rewrite (update_FLUSHING _ now_s' p' Hst').
    destruct (flush (actuator c') now_s') as [a [e|]];
      eexists; (split; [reflexivity|]); cbn; auto.
Qed.

Lemma FLUSHING_rests_one_call_witness :
  (state Points.waiting_base = WAIT_TO_FLUSH /\
   false = false /\
   (4 - 3 >=? 1)%t = true /\
   actuator Points.flushing_base = IActuator_init /\
   metrics Points.flushing_base =
     {| flush_count := 0; presence_events := 1 |}) /\
  forall (now_s' : Q) (p' : bool),
    exists c'',
      update Points.flushing_base now_s' p'
        = Raise (FlushRaised NotImplementedError) c'' /\
      state c'' = FLUSHING /\ state_enter_s c'' = 4%Q /\
      actuator c'' = IActuator_init /\
      metrics c'' = {| flush_count := 0; presence_events := 1 |}.
Proof.
  exact (@FLUSHING_rests_one_call Q _ _ _
           Points.waiting_base Points.flushing_base
           4%Q false eq_refl eq_refl).
Defined.

(** ** The onset timestamp (C3, C10) *)

(** C3, as stated, fails: promotion to IN_USE keeps the onset
    timestamp. *)
Lemma onset_kept_after_promotion :
  run Exact.controller [(0, true); (2, true)]%Q =
    Ok {| cfg := Exact.cfg; actuator := []; state := IN_USE;
          state_enter_s := 2%Q; presence_start_s := Some 0%Q;
          metrics := {| flush_count := 0; presence_events := 1 |} |}.
Proof. reflexivity. Qed.

(** C3 (amended): in every state reached from a fresh controller the
    onset timestamp is absent exactly when the state is IDLE; it is
    therefore present in PRESENCE_DETECTED, and also in IN_USE,
    WAIT_TO_FLUSH, FLUSHING and COOLDOWN.  Every run reaches a state:
    it returns, or it stops at an exception of the actuator and leaves
    the controller in a state of the same kind; with an actuator that
    returns, it returns. *)
Theorem onset_absent_iff_IDLE
    {T} {TO : TimeOps T} {A} {Act : IActuator T A}
    (config : Config T) (act : A) (samples : list (T * bool)) :
  exists c, ends_in (run (FlushController_init config act) samples) c /\
    (ActuatorReturns Act ->
     run (FlushController_init config act) samples = Ok c) /\
    (state c = IDLE <-> presence_start_s c = None).
Proof.
  destruct (run_ends samples _ (onset_inv_init config act))
    as (c & Hend & Hinv).
  exists c. split; [exact Hend|]. split; [|exact Hinv].
  intros Ret. exact (ends_in_returns _ _ _ (onset_inv_init config act) Hend).
Qed.

(** C10: the assertion of the PRESENCE_DETECTED branch cannot fail.
    Every run from a fresh controller returns, or stops at an exception
    of the actuator (and returns if the actuator does); in the state it
    reaches, PRESENCE_DETECTED comes with an onset timestamp, and no
    further call raises the assertion error. *)
Theorem assertion_never_fires
    {T} {TO : TimeOps T} {A} {Act : IActuator T A}
    (config : Config T) (act : A) (samples : list (T * bool)) :
  exists c, ends_in (run (FlushController_init config act) samples) c /\
    (ActuatorReturns Act ->
     run (FlushController_init config act) samples = Ok c) /\
    (state c = PRESENCE_DETECTED -> exists s, presence_start_s c = Some s) /\
    forall (now_s : T) (p : bool) (c' : FlushController T A),
      update c now_s p <> Raise AssertionError c'.
Proof.
  destruct (run_ends samples _ (onset_inv_init config act))
    as (c & Hend & Hinv).
  exists c. split; [exact Hend|]. split; [|split].
  - intros Ret.
    exact (ends_in_returns _ _ _ (onset_inv_init config act) Hend).
  - intros Hst. destruct (presence_start_s c) eqn:Hs; [eauto|].
    apply Hinv in Hs. congruence.
  - intros now_s p c'. apply update_never_asserts. exact Hinv.
Qed.

(** ** Counters (C8) *)

(** C8: [flush_count] moves only in a call dispatched on FLUSHING, by
    exactly one, together with exactly one line on the console; neither
    counter ever decreases.  (A call that raises has not touched the
    controller.) *)
Theorem flush_count_steps_with_actuator
    {T} {TO : TimeOps T}
    (c c' : FlushController T (ConsoleActuator T)) (now_s : T) (p : bool) :
  update c now_s p = Ok c' ->
  (state c = FLUSHING ->
     flush_count (metrics c') = (flush_count (metrics c) + 1)%Z /\
     actuator c' = actuator c ++ [now_s]) /\
  (state c <> FLUSHING ->
     flush_count (metrics c') = flush_count (metrics c) /\
     actuator c' = actuator c) /\
  (flush_count (metrics c) <= flush_count (metrics c'))%Z /\
  (presence_events (metrics c) <= presence_events (metrics c'))%Z.
Proof.
  intros Hup.
  assert (HF : state c = FLUSHING ->
               flush_count (metrics c') = (flush_count (metrics c) + 1)%Z /\
               actuator c' = actuator c ++ [now_s]).
  { intros Hst. rewrite (update_FLUSHING _ now_s p Hst) in Hup.
    inversion Hup; subst; cbn. auto. }
  assert (HN : state c <> FLUSHING ->
               flush_count (metrics c') = flush_count (metrics c) /\
               actuator c' = actuator c).
  { intros Hst. destruct (update_quiet _ _ _ _ Hst Hup); auto. }
  repeat split; try tauto.
  - destruct (State_eq_dec (state c) FLUSHING) as [E|E].
    + destruct (HF E); lia.
    + destruct (HN E); lia.
  - exact (update_presence_events_mono _ _ _ _ Hup).
Qed.

Lemma flush_count_steps_with_actuator_witness :
  (state Points.flushing = FLUSHING ->
     flush_count (metrics Points.cooling) =
       (flush_count (metrics Points.flushing) + 1)%Z /\
     actuator Points.cooling = actuator Points.flushing ++ [5%Q]) /\
  (state Points.flushing <> FLUSHING ->
     flush_count (metrics Points.cooling) =
       flush_count (metrics Points.flushing) /\
     actuator Points.cooling = actuator Points.flushing) /\
  (flush_count (metrics Points.flushing) <=
     flush_count (metrics Points.cooling))%Z /\
  (presence_events (metrics Points.flushing) <=
     presence_events (metrics Points.cooling))%Z.
Proof.
  exact (@flush_count_steps_with_actuator Q _
           Points.flushing Points.cooling 5%Q false eq_refl).
Defined.

(** ** COOLDOWN (C9) *)

(** C9: while the cooldown has not elapsed (the code's inclusive test
    [now - state_enter >= cooldown] fails, i.e. [now - state_enter <
    cooldown]) a call in COOLDOWN returns the controller as it was:
    state tag, both timestamps, both counters, and the actuator, for
    either presence value. *)
Theorem cooldown_frame
    {T} {TO : TimeOps T} {A} {Act : IActuator T A}
    (c : FlushController T A) (now_s : T) (p : bool) :
  state c = COOLDOWN ->
  (now_s - state_enter_s c >=? cooldown_seconds (cfg c))%t = false ->
  update c now_s p = Ok c.
Proof. unfold update. intros -> ->. reflexivity. Qed.

Lemma cooldown_frame_witness :
  update Points.cooling 12%Q true = Ok Points.cooling.
Proof.
  exact (@cooldown_frame Q _ _ _ Points.cooling 12%Q true eq_refl eq_refl).
Defined.

(** ** Configuration (C4) *)

(** C4, as stated, fails: a negative duration is accepted and stored. *)
Lemma negative_duration_accepted :
  Config_init (-1) 1 8 =
    Ok {| min_use_seconds := -1; flush_delay_seconds := 1;
          cooldown_seconds := 8 |}%Q /\
  (-1 < 0)%Q.
Proof. split; reflexivity. Qed.

(** C4 (amended): constructing a [Config] performs no validation; it
    succeeds for any three durations, of any sign, and the fields hold
    the values given. *)
Theorem Config_init_unvalidated {T} {TO : TimeOps T}
    (min_use flush_delay cooldown : T) :
  exists config, Config_init min_use flush_delay cooldown = Ok config /\
    min_use_seconds config = min_use /\
    flush_delay_seconds config = flush_delay /\
    cooldown_seconds config = cooldown.
Proof. eexists; split; [reflexivity|]. cbn. auto. Qed.

(** ** Presence episodes (C6, C7) *)

Section Episodes.
Context {T : Type} {TO : TimeOps T} {A : Type} {Act : IActuator T A}.
Implicit Types (c : FlushController T A) (now_s : T).

Lemma history_app s1 : forall c c1 s2,
  run c s1 = Ok c1 ->
  history c (s1 ++ s2) = history c s1 ++ history c1 s2.
Proof.
  induction s1 as [|[now_s p] rest IH]; intros c c1 s2; cbn.
  - intros E; inversion E; reflexivity.
  - destruct (update c now_s p) as [c'|]; cbn; [|discriminate].
    intros Hrun. rewrite (IH _ _ _ Hrun). reflexivity.
Qed.

(** Presence below the threshold leaves a PRESENCE_DETECTED controller
    untouched. *)
Lemma run_present_below c p0 ps :
  state c = PRESENCE_DETECTED ->
  presence_start_s c = Some p0 ->
  Forall (fun t => (t - p0 >=? min_use_seconds (cfg c))%t = false) ps ->
  run c (present ps) = Ok c /\ history c (present ps) = map (fun _ => c) ps.
Proof.
  intros Hst Hs. unfold present.
  induction 1 as [|t ps Ht _ IH]; cbn; [auto|].
  unfold update. rewrite Hst, Hs. cbn. rewrite Ht. cbn.
  destruct IH as [-> ->]. auto.
Qed.

Lemma same_books_refl c : same_books c c.
Proof. unfold same_books; auto. Qed.

Lemma same_books_enter c (new_state : State) now_s :
  same_books c (_enter c new_state now_s).
Proof. unfold same_books; cbn; auto. Qed.

Lemma same_books_clear c (new_state : State) now_s :
  same_books c (_enter (set_presence_start c None) new_state now_s).
Proof. unfold same_books; cbn; auto. Qed.

Create HintDb books.
Hint Resolve same_books_refl same_books_enter same_books_clear : books.

Lemma same_books_trans c1 c2 c3 :
  same_books c1 c2 -> same_books c2 c3 -> same_books c1 c3.
Proof. unfold same_books; intuition congruence. Qed.

(** Presence whose last sample reaches the threshold ends in IN_USE. *)
Lemma run_present_promotes p0 plast ps : forall c,
  (state c = PRESENCE_DETECTED /\ presence_start_s c = Some p0) \/
    state c = IN_USE ->
  (plast - p0 >=? min_use_seconds (cfg c))%t = true ->
  exists c', run c (present (ps ++ [plast])) = Ok c' /\
    state c' = IN_USE /\ same_books c c'.
Proof.
  unfold present.
  induction ps as [|t ps IH]; intros c Hc Hlast; cbn.
  - unfold update. destruct Hc as [[Hst Hs]|Hst]; rewrite Hst; cbn.
    + rewrite Hs, Hlast. eexists; split; [reflexivity|].
      split; [reflexivity | auto with books].
    + eexists; split; [reflexivity|]. split; [exact Hst | auto with books].
  - assert (Hstep : exists c1, update c t true = Ok c1 /\ same_books c c1 /\
              ((state c1 = PRESENCE_DETECTED /\ presence_start_s c1 = Some p0)
               \/ state c1 = IN_USE)).
    { unfold update. destruct Hc as [[Hst Hs]|Hst]; rewrite Hst; cbn.
      - rewrite Hs. destruct (t - p0 >=? min_use_seconds (cfg c))%t.
        + eexists; split; [reflexivity|]. split; [auto with books|].
          right; reflexivity.
        + eexists; split; [reflexivity|]. split; [auto with books|].
          left; auto.
      - eexists; split; [reflexivity|]. split; [auto with books|].
        right; exact Hst. }
    destruct Hstep as (c1 & -> & Hb & Hc1). cbn.
    destruct (IH c1 Hc1) as (c' & Hrun & Hst' & Hb').
    { destruct Hb as (-> & _). exact Hlast. }
    exists c'. split; [exact Hrun|]. split; [exact Hst'|].
    eapply same_books_trans; eassumption.
Qed.

(** Absence short of the flush delay leaves a WAIT_TO_FLUSH controller
    untouched. *)
Lemma run_absent_waiting c ts :
  state c = WAIT_TO_FLUSH ->
  Forall (fun t => (t - state_enter_s c >=? flush_delay_seconds (cfg c))%t
                   = false) ts ->
  run c (absent ts) = Ok c.
Proof.
  intros Hst. unfold absent.
  induction 1 as [|t ts Ht _ IH]; cbn; [auto|].
  unfold update. rewrite Hst. cbn. rewrite Ht. cbn. exact IH.
Qed.

(** Absence after the flush: the controller sits out the cooldown and
    then idles. *)
Lemma run_absent_resting ts : forall c,
  state c = COOLDOWN \/ state c = IDLE ->
  exists c', run c (absent ts) = Ok c' /\
    (state c' = COOLDOWN \/ state c' = IDLE) /\ same_books c c'.
Proof.
  unfold absent.
  induction ts as [|t ts IH]; intros c Hc; cbn.
  - exists c. split; [reflexivity|]. split; [exact Hc | auto with books].
  - assert (Hstep : exists c1, update c t false = Ok c1 /\ same_books c c1 /\
              (state c1 = COOLDOWN \/ state c1 = IDLE)).
    { unfold update. destruct Hc as [Hst|Hst]; rewrite Hst; cbn.
      - destruct (t - state_enter_s c >=? cooldown_seconds (cfg c))%t.
        + eexists; split; [reflexivity|]. split; [auto with books|].
          right; reflexivity.
        + eexists; split; [reflexivity|]. split; [auto with books|].
          left; exact Hst.
      - eexists; split; [reflexivity|]. split; [auto with books|].
        right; exact Hst. }
    destruct Hstep as (c1 & -> & Hb & Hc1). cbn.
    destruct (IH c1 Hc1) as (c' & Hrun & Hst' & Hb').
    exists c'. split; [exact Hrun|]. split; [exact Hst'|].
    eapply same_books_trans; eassumption.
Qed.

End Episodes.

(** C7: starting from IDLE, presence that goes away while every sample
    after the onset still fails the test [now - presence_start >=
    min_use_seconds] is dropped as noise: no controller seen after any
    call of the episode is IN_USE, the actuator and [flush_count] are as
    before at each of them, no call raises, and the episode ends in
    IDLE. *)
Theorem short_presence_is_noise
    {T} {TO : TimeOps T} {A} {Act : IActuator T A}
    (c : FlushController T A) (p0 : T) (ps : list T) (a : T) :
  state c = IDLE ->
  Forall (fun t => (t - p0 >=? min_use_seconds (cfg c))%t = false) ps ->
  exists c', run c (short_episode p0 ps a) = Ok c' /\
    state c' = IDLE /\
    length (history c (short_episode p0 ps a)) =
      length (short_episode p0 ps a) /\
    Forall (fun h => state h <> IN_USE /\
                     actuator h = actuator c /\
                     flush_count (metrics h) = flush_count (metrics c))
           (history c (short_episode p0 ps a)).
Proof.
  intros Hst Hps. unfold short_episode.
  set (c1 := _enter (set_presence_start
                       (set_metrics c (incr_presence_events (metrics c)))
                       (Some p0)) PRESENCE_DETECTED p0).
  assert (H1 : update c p0 true = Ok c1)
    by (unfold update; rewrite Hst; reflexivity).
  destruct (run_present_below c1 p0 ps eq_refl eq_refl Hps) as [H2 H2h].
  set (c2 := _enter (set_presence_start c1 None) IDLE a).
  assert (H3 : update c1 a false = Ok c2) by reflexivity.
  assert (Hc1 : state c1 <> IN_USE /\ actuator c1 = actuator c /\
                flush_count (metrics c1) = flush_count (metrics c))
    by (cbn; repeat split; discriminate).
  assert (Hc2 : state c2 <> IN_USE /\ actuator c2 = actuator c /\
                flush_count (metrics c2) = flush_count (metrics c))
    by (cbn; repeat split; discriminate).
  assert (Hidle : state c2 = IDLE) by reflexivity.
  clearbody c2. clearbody c1.
  assert (Hrun : run c (present (p0 :: ps)) = Ok c1).
  { change (present (p0 :: ps)) with ((p0, true) :: present ps).
    rewrite (run_step_ok _ _ _ _ _ H1). exact H2. }
  assert (Hhist : history c (present (p0 :: ps) ++ absent [a]) =
                  c1 :: map (fun _ => c1) ps ++ [c2]).
  { rewrite (history_app _ _ _ _ Hrun).
    change (present (p0 :: ps)) with ((p0, true) :: present ps).
    cbn [history]. rewrite H1, H2h. cbn. rewrite H3. reflexivity. }
  exists c2. split; [|split; [exact Hidle|split]].
  - rewrite (run_app_ok _ _ _ _ Hrun). cbn. rewrite H3. reflexivity.
  - rewrite Hhist. unfold present, absent. cbn.
    rewrite !length_app, !length_map. reflexivity.
  - rewrite Hhist. constructor; [exact Hc1|].
    apply Forall_app. split.
    + apply Forall_forall. intros h Hin. apply in_map_iff in Hin.
      destruct Hin as (_ & <- & _). exact Hc1.
    + constructor; [exact Hc2|constructor].
Qed.

Lemma short_presence_is_noise_witness :
  exists c', run Exact.controller (short_episode 1 [1.1; 1.5] 1.6)%Q = Ok c' /\
    state c' = IDLE /\
    length (history Exact.controller (short_episode 1 [1.1; 1.5] 1.6)%Q) =
      length (short_episode 1 [1.1; 1.5] 1.6)%Q /\
    Forall (fun h => state h <> IN_USE /\
                     actuator h = actuator Exact.controller /\
                     flush_count (metrics h) =
                       flush_count (metrics Exact.controller))
           (history Exact.controller (short_episode 1 [1.1; 1.5] 1.6)%Q).
Proof.
  apply (@short_presence_is_noise Q _ _ _ Exact.controller 1 [1.1; 1.5] 1.6)%Q.
  - reflexivity.
  - repeat constructor.
Defined.

(** C6, as stated, fails: two seconds of presence, then absence; at the
    sample where the one-second delay is reached the controller only
    enters FLUSHING.  A run that stops there has invoked nothing, and
    one that goes on fires at the next sample, whenever that comes. *)
Lemma flush_waits_for_next_sample :
  run Exact.controller
      (use_phase 0 [1] 2 ++ wait_phase 3 [] 4)%Q =
    Ok {| cfg := Exact.cfg; actuator := []; state := FLUSHING;
          state_enter_s := 4%Q; presence_start_s := Some 0%Q;
          metrics := {| flush_count := 0; presence_events := 1 |} |} /\
  run Exact.controller
      (use_phase 0 [1] 2 ++ wait_phase 3 [] 4 ++ absent [10])%Q =
    Ok {| cfg := Exact.cfg; actuator := [10%Q]; state := COOLDOWN;
          state_enter_s := 10%Q; presence_start_s := Some 0%Q;
          metrics := {| flush_count := 1; presence_events := 1 |} |}.
Proof. split; reflexivity. Qed.

(** C6 (amended): from IDLE, presence sampled at least twice whose last
    sample lies [min_use_seconds] or more after the first, followed only
    by absence.  Let [a0] be the first absent sample and [aj] the first
    later one with [aj - a0 >= flush_delay_seconds].  The call at [aj]
    enters FLUSHING and invokes nothing; if one more sample [ak]
    follows, the actuator is invoked exactly once in the whole run, by
    that call and with its timestamp, however long the absence goes
    on. *)
Theorem use_then_absence_flushes_once
    {T} {TO : TimeOps T}
    (c : FlushController T (ConsoleActuator T))
    (p0 : T) (ps : list T) (plast a0 : T) (as1 : list T) (aj ak : T)
    (as2 : list T) :
  state c = IDLE ->
  (plast - p0 >=? min_use_seconds (cfg c))%t = true ->
  Forall (fun t => (t - a0 >=? flush_delay_seconds (cfg c))%t = false) as1 ->
  (aj - a0 >=? flush_delay_seconds (cfg c))%t = true ->
  (exists cF,
     run c (use_phase p0 ps plast ++ wait_phase a0 as1 aj) = Ok cF /\
     state cF = FLUSHING /\ state_enter_s cF = aj /\
     actuator cF = actuator c /\
     flush_count (metrics cF) = flush_count (metrics c)) /\
  (exists c',
     run c (use_phase p0 ps plast ++ wait_phase a0 as1 aj
            ++ absent (ak :: as2)) = Ok c' /\
     (state c' = COOLDOWN \/ state c' = IDLE) /\
     actuator c' = actuator c ++ [ak] /\
     flush_count (metrics c') = (flush_count (metrics c) + 1)%Z).
Proof.
  intros Hst Hlast Hwait Hj.
  set (c1 := _enter (set_presence_start
                       (set_metrics c (incr_presence_events (metrics c)))
                       (Some p0)) PRESENCE_DETECTED p0).
  assert (H1 : update c p0 true = Ok c1)
    by (unfold update; rewrite Hst; reflexivity).
  destruct (run_present_promotes p0 plast ps c1
              (or_introl (conj eq_refl eq_refl)) Hlast)
    as (c2 & H2 & Hst2 & Hcfg2 & Hact2 & Hmet2).
  cbn in Hcfg2, Hact2, Hmet2.
  assert (Huse : run c (use_phase p0 ps plast) = Ok c2).
  { unfold use_phase.
    change (present (p0 :: ps ++ [plast]))
      with ((p0, true) :: present (ps ++ [plast])).
    rewrite (run_step_ok _ _ _ _ _ H1). exact H2. }
  clearbody c1. clear H1 H2 c1.
  assert (H3 : update c2 a0 false = Ok (_enter c2 WAIT_TO_FLUSH a0))
    by (unfold update; rewrite Hst2; reflexivity).
  assert (H4 : run (_enter c2 WAIT_TO_FLUSH a0) (absent as1) =
               Ok (_enter c2 WAIT_TO_FLUSH a0)).
  { apply run_absent_waiting; [reflexivity|]. cbn. rewrite Hcfg2. exact Hwait. }
  assert (H5 : update (_enter c2 WAIT_TO_FLUSH a0) aj false =
               Ok (_enter (_enter c2 WAIT_TO_FLUSH a0) FLUSHING aj)).
  { unfold update. cbn. rewrite Hcfg2, Hj. reflexivity. }
  assert (Hwaitrun : run c2 (wait_phase a0 as1 aj) =
                     Ok (_enter (_enter c2 WAIT_TO_FLUSH a0) FLUSHING aj)).
  { unfold wait_phase, absent. cbn [map].
    rewrite (run_step_ok _ _ _ _ _ H3), map_app.
    rewrite (run_app_ok _ _ _ _ H4). cbn [map].
    rewrite (run_step_ok _ _ _ _ _ H5). reflexivity. }
  set (cF := _enter (_enter c2 WAIT_TO_FLUSH a0) FLUSHING aj) in *.
  assert (HF : run c (use_phase p0 ps plast ++ wait_phase a0 as1 aj) = Ok cF).
  { rewrite (run_app_ok _ _ _ _ Huse). exact Hwaitrun. }
  split.
  - exists cF. split; [exact HF|]. cbn. rewrite Hact2, Hmet2. cbn. auto.
  - rewrite app_assoc, (run_app_ok _ _ _ _ HF).
    set (cC := _enter (set_metrics (set_actuator cF (actuator cF ++ [ak]))
                                   (incr_flush_count (metrics cF)))
                      COOLDOWN ak).
    assert (H6 : update cF ak false = Ok cC) by reflexivity.
    destruct (run_absent_resting as2 cC (or_introl eq_refl))
      as (c' & H7 & Hst' & Hcfg' & Hact' & Hmet').
    exists c'. unfold absent. cbn [map].
    rewrite (run_step_ok _ _ _ _ _ H6). split; [exact H7|].
    split; [exact Hst'|]. rewrite Hact', Hmet'. cbn.
    rewrite Hact2, Hmet2. cbn. auto.
Qed.

Lemma use_then_absence_flushes_once_witness :
  (exists cF,
     run Exact.controller (use_phase 5 [6; 6.9] 7 ++ wait_phase 9 [9.5] 10)%Q
       = Ok cF /\
     state cF = FLUSHING /\ state_enter_s cF = 10%Q /\
     actuator cF = actuator Exact.controller /\
     flush_count (metrics cF) = flush_count (metrics Exact.controller)) /\
  (exists c',
     run Exact.controller
         (use_phase 5 [6; 6.9] 7 ++ wait_phase 9 [9.5] 10
          ++ absent (10.1 :: [12; 18.1; 19]))%Q = Ok c' /\
     (state c' = COOLDOWN \/ state c' = IDLE) /\
     actuator c' = actuator Exact.controller ++ [10.1%Q] /\
     flush_count (metrics c') =
       (flush_count (metrics Exact.controller) + 1)%Z).
Proof.
  apply (@use_then_absence_flushes_once Q _ Exact.controller
           5 [6; 6.9] 7 9 [9.5] 10 10.1 [12; 18.1; 19])%Q.
  - reflexivity.
  - reflexivity.
  - repeat constructor.
  - reflexivity.
Defined.

(** ** Rate limiting (C5) *)

Section RateLimit.
Context {T : Type} {TO : TimeOps T} {TL : TimeLaws T}.
Implicit Types (c : FlushController T (ConsoleActuator T)) (log : list T).




Lemma gap_extends (lo now_s l cd : T) :
  (lo - l >=? cd)%t = true -> (lo <=? now_s)%t = true ->
  (now_s - l >=? cd)%t = true.
Proof.
  unfold tgeb. intros H1 H2.
  exact (tleb_trans _ _ _ H1 (tsub_mono_l _ _ l H2)).
Qed.



End RateLimit.

Example two_uses_console :
  run Exact.controller two_uses =
    Ok {| cfg := Exact.cfg; actuator := [5; 19]%Q; state := COOLDOWN;
          state_enter_s := 19%Q; presence_start_s := Some 14%Q;
          metrics := {| flush_count := 2; presence_events := 2 |} |}.
Proof. reflexivity. Qed.




(** ** The simulation (C2) *)

Section Simulation.
Context {T : Type} {TO : TimeOps T} {A : Type} {Act : IActuator T A}.
Context {S : Type} {Sen : ISensor T S}.

(** Once the loop has ended, more fuel changes nothing. *)
Lemma run_simulation_more_fuel (extra : nat) (sensor : S)
    (duration_s step_s : T) (fuel : nat) :
  forall (c : FlushController T A) (t : T) r,
    run_simulation fuel sensor c duration_s step_s t = Some r ->
    run_simulation (fuel + extra) sensor c duration_s step_s t = Some r.
Proof.
  induction fuel as [|fuel IH]; intros c t r; cbn; [discriminate|].
  destruct (t <=? duration_s)%t; [|auto].
  destruct (presence sensor t) as [q|e]; [|auto].
  destruct (update c t q); auto.
Qed.
End Simulation.

#[local] Set Warnings "-inexact-float".

(** C2, as stated, fails on its last figure: the onset at 12.0 falls in
    COOLDOWN and is not counted, on the binary64 clock as on the exact
    one. *)
Lemma third_onset_not_counted :
  (exists c, Binary64.main 251 = Some (Ok c) /\
     metrics c = {| flush_count := 1; presence_events := 2 |}) /\
  (exists c, Exact.main 252 = Some (Ok c) /\
     metrics c = {| flush_count := 1; presence_events := 2 |}).
Proof. split; eexists; split; vm_compute; reflexivity. Qed.

(** C2 (amended): the scenario of [__main__] ends, whatever fuel is
    left over, with one line on the console and the metrics
    [flush_count = 1], [presence_events = 2].  On the binary64 clock
    the flush is invoked at the sample 10.299999999999979: the sums of
    0.1 fall just short of 9.0 and of the one-second delay, and the
    flush itself takes one more sample.  Stopping the same run at 4.0
    shows no flush from the first episode; stopping it at 11.0 shows the
    flush already made, before the third episode begins.  With exact
    decimal timestamps the flush is invoked at 10.1. *)
Theorem main_scenario :
  (forall extra,
     Binary64.main (251 + extra) =
       Some (Ok {| cfg := Binary64.cfg;
                   actuator := [10.299999999999979%float];
                   state := IDLE;
                   state_enter_s := 18.29999999999999%float;
                   presence_start_s := None;
                   metrics := {| flush_count := 1;
                                 presence_events := 2 |} |})) /\
  Binary64.simulate 41 4.0%float =
    Some (Ok {| cfg := Binary64.cfg; actuator := []; state := IDLE;
                state_enter_s := 1.6000000000000003%float;
                presence_start_s := None;
                metrics := {| flush_count := 0; presence_events := 1 |} |}) /\
  Binary64.simulate 112 11.0%float =
    Some (Ok {| cfg := Binary64.cfg;
                actuator := [10.299999999999979%float]; state := COOLDOWN;
                state_enter_s := 10.299999999999979%float;
                presence_start_s := Some 5.0999999999999979%float;
                metrics := {| flush_count := 1; presence_events := 2 |} |}) /\
  (forall extra,
     Exact.main (252 + extra) =
       Some (Ok {| cfg := Exact.cfg; actuator := [10.1%Q]; state := IDLE;
                   state_enter_s := 18.1%Q; presence_start_s := None;
                   metrics := {| flush_count := 1;
                                 presence_events := 2 |} |})).
Proof.
  split; [|split; [|split]].
  - intros extra. apply run_simulation_more_fuel. vm_compute. reflexivity.
  - vm_compute. reflexivity.
  - vm_compute. reflexivity.
  - intros extra. apply run_simulation_more_fuel. vm_compute. reflexivity.
Qed.

(** * Further properties of the code *)

(** ** The state diagram *)

(** A call either returns the controller exactly as it was, or follows
    one arrow of the diagram and stamps the entry time with its own
    timestamp; there is no other way to change a controller. *)
Theorem update_stays_or_steps
    {T} {TO : TimeOps T} {A} {Act : IActuator T A}
    (c c' : FlushController T A) (now_s : T) (p : bool) :
  update c now_s p = Ok c' ->
  c' = c \/
  (transition (state c) (state c') = true /\ state_enter_s c' = now_s).
Proof.
  revert c'. update_branches c p; intros c' E; inversion E; subst; cbn;
    auto.
Qed.

Lemma update_stays_or_steps_witness :
  Points.cooling = Points.flushing \/
  (transition (state Points.flushing) (state Points.cooling) = true /\
   state_enter_s Points.cooling = 5%Q).
Proof.
  exact (@update_stays_or_steps Q _ _ _
           Points.flushing Points.cooling 5%Q true eq_refl).
Defined.

(** ** Counters and console over whole runs *)

Section RunInvariants.
Context {T : Type} {TO : TimeOps T}.

(** Generic induction over a run for an invariant of [update]. *)
Lemma run_invariant {A} {Act : IActuator T A}
    (I : FlushController T A -> Prop) :
  (forall (c : FlushController T A) now_s p c',
     I c -> update c now_s p = Ok c' -> I c') ->
  forall samples (c c' : FlushController T A),
    I c -> run c samples = Ok c' -> I c'.
Proof.
  intros Hstep. induction samples as [|[now_s p] rest IH]; intros c c' Hc; cbn.
  - intros E; inversion E; subst; exact Hc.
  - destruct (update c now_s p) as [c1|] eqn:Hup; cbn; [|discriminate].
    apply IH. exact (Hstep _ _ _ _ Hc Hup).
Qed.

(** The same for runs that may stop at an exception of the actuator,
    for invariants that do not look at the actuator. *)
Lemma run_invariant_ends {A} {Act : IActuator T A}
    (I : FlushController T A -> Prop) :
  (forall (c : FlushController T A) now_s p c',
     I c -> update c now_s p = Ok c' -> I c') ->
  (forall (c : FlushController T A) a, I c -> I (set_actuator c a)) ->
  forall samples (c c' : FlushController T A),
    I c -> ends_in (run c samples) c' -> I c'.
Proof.
  intros Hstep Hact.
  induction samples as [|[now_s p] rest IH]; intros c c' Hc; cbn [run].
  - intros [E|(e & E)]; inversion E; subst; exact Hc.
  - destruct (update c now_s p) as [c1|e1 c1] eqn:Hup; cbn [bind].
    + apply IH. exact (Hstep _ _ _ _ Hc Hup).
    + intros [E|(e & E)]; inversion E; subst.
      destruct (update_raise_cases _ _ _ _ _ Hup)
        as [(E1 & _)|(x & a & _ & _ & _ & ->)]; [discriminate|].
      apply Hact. exact Hc.
Qed.

Lemma update_count_is_console (c c' : FlushController T (ConsoleActuator T)) now_s p :
  flush_count (metrics c) = Z.of_nat (length (actuator c)) ->
  update c now_s p = Ok c' ->
  flush_count (metrics c') = Z.of_nat (length (actuator c')).
Proof.
  intros Hc Hup.
  destruct (State_eq_dec (state c) FLUSHING) as [HF|HF].
  - rewrite (update_FLUSHING _ now_s p HF) in Hup. inversion Hup; subst; cbn.
    unfold flush, ConsoleActuator_flush. rewrite length_app. cbn. lia.
  - destruct (update_quiet _ _ _ _ HF Hup) as [-> ->]. exact Hc.
Qed.

Lemma update_count_below_events {A} {Act : IActuator T A}
    (c c' : FlushController T A) now_s p :
  (flush_count (metrics c) + (if following (state c) then 1 else 0)
   <= presence_events (metrics c))%Z ->
  update c now_s p = Ok c' ->
  (flush_count (metrics c') + (if following (state c') then 1 else 0)
   <= presence_events (metrics c'))%Z.
Proof.
  revert c'. update_branches c p; intros c' Hc E; inversion E; subst;
    cbn in *;
    try match goal with H : state _ = _ |- _ => rewrite H in * end;
    cbn in *; lia.
Qed.

Lemma update_progress {A} {Act : IActuator T A}
    (c c' : FlushController T A) now_s p :
  update c now_s p = Ok c' ->
  (6 * flush_count (metrics c') + progress (state c')
   <= 6 * flush_count (metrics c) + progress (state c) + 1)%Z.
Proof.
  revert c'. update_branches c p; intros c' E; inversion E; subst;
    fields;
    try match goal with H : state _ = _ |- _ => rewrite H in * end;
    fields; lia.
Qed.

Lemma run_progress {A} {Act : IActuator T A} samples :
  forall (c c' : FlushController T A),
  ends_in (run c samples) c' ->
  (6 * flush_count (metrics c') + progress (state c')
   <= 6 * flush_count (metrics c) + progress (state c)
      + Z.of_nat (length samples))%Z.
Proof.
  induction samples as [|[now_s p] rest IH]; intros c c'; cbn [run length].
  - intros [E|(e & E)]; inversion E; subst. lia.
  - destruct (update c now_s p) as [c1|e1 c1] eqn:Hup; cbn [bind].
    + intros Hrun. pose proof (update_progress _ _ _ _ Hup).
      pose proof (IH _ _ Hrun). lia.
    + intros [E|(e & E)]; inversion E; subst.
      destruct (update_raise_cases _ _ _ _ _ Hup)
        as [(E1 & _)|(x & a & _ & _ & _ & ->)]; [discriminate|].
      fields. lia.
Qed.

Lemma run_console_subseq samples : forall c c' : FlushController T (ConsoleActuator T),
  run c samples = Ok c' ->
  exists l, actuator c' = actuator c ++ l /\ subseq l (map fst samples).
Proof.
  induction samples as [|[now_s p] rest IH]; intros c c'; cbn [run map fst].
  - intros E; inversion E; subst. exists []. rewrite app_nil_r.
    split; [reflexivity | constructor].
  - destruct (update c now_s p) as [c1|] eqn:Hup; cbn; [|discriminate].
    intros Hrun. destruct (IH _ _ Hrun) as (l & Hl & Hsub).
    destruct (State_eq_dec (state c) FLUSHING) as [HF|HF].
    + rewrite (update_FLUSHING _ now_s p HF) in Hup. inversion Hup; subst c1.
      cbn in Hl. unfold flush, ConsoleActuator_flush in Hl.
      exists (now_s :: l). rewrite Hl, <- app_assoc.
      split; [reflexivity | constructor; exact Hsub].
    + destruct (update_quiet _ _ _ _ HF Hup) as [Hact _].
      exists l. rewrite Hl, Hact. split; [reflexivity | constructor; exact Hsub].
Qed.

End RunInvariants.

(** After any run from a fresh controller with a [ConsoleActuator],
    [flush_count] is the number of [flush] calls made, which is the
    number of lines printed. *)
Theorem flush_count_is_console_length {T} {TO : TimeOps T}
    (config : Config T) (samples : list (T * bool)) :
  exists c, run (FlushController_init config ConsoleActuator_init) samples
            = Ok c /\
    flush_count (metrics c) = Z.of_nat (length (actuator c)).
Proof.
  destruct (run_onset_inv samples _
              (onset_inv_init config (@ConsoleActuator_init T)))
    as (c & Hrun & _).
  exists c. split; [exact Hrun|].
  refine (run_invariant
            (fun d => flush_count (metrics d) = Z.of_nat (length (actuator d)))
            (fun c0 now_s p c1 => update_count_is_console c0 c1 now_s p)
            samples _ _ _ Hrun).
  reflexivity.
Qed.

(** After any run from a fresh controller there are at most as many
    flushes as counted presence onsets, and strictly fewer while an
    episode is being followed (PRESENCE_DETECTED to FLUSHING): every
    flush uses up an onset of its own.  The run returns, or stops at
    an exception of the actuator, and the count holds of the controller
    it leaves. *)
Theorem flush_count_below_presence_events
    {T} {TO : TimeOps T} {A} {Act : IActuator T A}
    (config : Config T) (act : A) (samples : list (T * bool)) :
  exists c, ends_in (run (FlushController_init config act) samples) c /\
    (ActuatorReturns Act ->
     run (FlushController_init config act) samples = Ok c) /\
    (flush_count (metrics c) <= presence_events (metrics c))%Z /\
    (following (state c) = true ->
     (flush_count (metrics c) < presence_events (metrics c))%Z).
Proof.
  destruct (run_ends samples _ (onset_inv_init config act))
    as (c & Hend & _).
  exists c. split; [exact Hend|]. split.
  { intros Ret.
    exact (ends_in_returns _ _ _ (onset_inv_init config act) Hend). }
  assert (H : (flush_count (metrics c)
               + (if following (state c) then 1 else 0)
               <= presence_events (metrics c))%Z).
  { refine (run_invariant_ends
              (fun d => (flush_count (metrics d)
                         + (if following (state d) then 1 else 0)
                         <= presence_events (metrics d))%Z)
              (fun c0 now_s p c1 => update_count_below_events c0 c1 now_s p)
              _ samples _ _ _ Hend).
    - intros c0 a H0. exact H0.
    - cbn. lia. }
  destruct (following (state c)); split; try lia; intros; lia.
Qed.

(** Whatever the thresholds, zero and negative ones included, a flush
    takes six calls: [n] calls on a fresh controller make at most
    [(n + 1) / 6] flushes, whether the run returns or stops at an
    exception of the actuator. *)
Theorem six_calls_per_flush
    {T} {TO : TimeOps T} {A} {Act : IActuator T A}
    (config : Config T) (act : A) (samples : list (T * bool)) :
  exists c, ends_in (run (FlushController_init config act) samples) c /\
    (ActuatorReturns Act ->
     run (FlushController_init config act) samples = Ok c) /\
    (6 * flush_count (metrics c) <= Z.of_nat (length samples) + 1)%Z.
Proof.
  destruct (run_ends samples _ (onset_inv_init config act))
    as (c & Hend & _).
  exists c. split; [exact Hend|]. split.
  { intros Ret.
    exact (ends_in_returns _ _ _ (onset_inv_init config act) Hend). }
  pose proof (run_progress _ _ _ Hend) as H.
  cbn [FlushController_init state metrics Metrics_init flush_count progress]
    in H.
  assert (-1 <= progress (state c))%Z by (destruct (state c); cbn; lia).
  lia.
Qed.

(** The arguments with which [flush] is invoked during a run from a
    fresh controller are a subsequence of the timestamps passed to
    [update]: every invocation carries the timestamp of the call that
    makes it, invocations come in call order, and no call invokes
    twice.  (What [ConsoleActuator] prints of the argument is not at
    stake.) *)
Theorem console_subseq_of_samples {T} {TO : TimeOps T}
    (config : Config T) (samples : list (T * bool)) :
  exists c, run (FlushController_init config ConsoleActuator_init) samples
            = Ok c /\
    subseq (actuator c) (map fst samples).
Proof.
  destruct (run_onset_inv samples _
              (onset_inv_init config (@ConsoleActuator_init T)))
    as (c & Hrun & _).
  exists c. split; [exact Hrun|].
  destruct (run_console_subseq _ _ _ Hrun) as (l & Hl & Hsub).
  rewrite Hl. exact Hsub.
Qed.

(** ** The simulation loop *)

(** When the loop ends within the fuel and the sensor returned the
    answers [ps] at the timestamps visited, [run_simulation] is the
    driver [run] applied to those samples: what holds of every run
    holds of every such simulation. *)
Theorem run_simulation_is_run
    {T} {TO : TimeOps T} {A} {Act : IActuator T A} {S} {Sen : ISensor T S}
    (sensor : S) (duration_s step_s : T) (fuel : nat) :
  forall (c : FlushController T A) (t : T) (ts : list T) (ps : list bool),
    sample_times fuel duration_s step_s t = Some ts ->
    answers sensor ts ps ->
    run_simulation fuel sensor c duration_s step_s t =
      Some (run c (combine ts ps)).
Proof.
  induction fuel as [|fuel IH]; intros c t ts ps;
    cbn [sample_times run_simulation]; [discriminate|].
  destruct (t <=? duration_s)%t.
  - destruct (sample_times fuel duration_s step_s (t + step_s)%t) as [ts'|]
      eqn:Hts; cbn [option_map]; [|discriminate].
    intros E Hans; inversion E; subst ts.
    inversion Hans as [|? q ? ps' Hq Hrest]; subst.
    rewrite Hq. cbn [combine run].
    destruct (update c t q) as [c1|e c1]; cbn [bind].
    + apply IH; assumption.
    + reflexivity.
  - intros E Hans; inversion E; subst. inversion Hans; subst. reflexivity.
Qed.

Lemma run_simulation_is_run_witness :
  run_simulation 4 Binary64.sensor Binary64.controller 0.2%float 0.1%float
                 0%float =
    Some (run Binary64.controller
              (combine [0; 0.1; 0.2]%float [false; false; false])).
Proof.
  exact (@run_simulation_is_run float _ _ _ _ _ Binary64.sensor
           0.2%float 0.1%float 4 Binary64.controller 0%float
           [0; 0.1; 0.2]%float [false; false; false] eq_refl
           ltac:(repeat constructor)).
Defined.

(** A step that [t] absorbs never ends the loop: if [t + step_s] is
    [t] again (a zero step; on binary64 also a step too small for the
    size of [t], as 0.1 is for 1e16), [t <= duration_s], and the sensor
    and the actuator return, then whatever the fuel the loop is still
    running when it is spent. *)
Theorem run_simulation_stuck
    {T} {TO : TimeOps T} {A} {Act : IActuator T A} {S} {Sen : ISensor T S}
    (sensor : S) (duration_s step_s t : T) (q : bool) (fuel : nat) :
  ActuatorReturns Act ->
  presence sensor t = Returned q ->
  (t + step_s)%t = t ->
  (t <=? duration_s)%t = true ->
  forall c : FlushController T A,
    onset_inv c ->
    run_simulation fuel sensor c duration_s step_s t = None.
Proof.
  intros Ret Hq Habs Hle.
  induction fuel as [|fuel IH]; intros c Hc; cbn [run_simulation];
    [reflexivity|].
  rewrite Hle, Hq.
  destruct (update_onset_inv c t q Hc) as (c1 & -> & Hc1).
  rewrite Habs. apply IH. exact Hc1.
Qed.

Lemma run_simulation_stuck_witness :
  run_simulation 1000 Binary64.sensor Binary64.controller
                 2e16%float 0.1%float 1e16%float = None.
Proof.
  exact (@run_simulation_stuck float _ _ _ _ _ Binary64.sensor
           2e16%float 0.1%float 1e16%float false 1000
           _ eq_refl eq_refl eq_refl Binary64.controller
           (onset_inv_init _ _)).
Defined.

(** ** Absence that does not last *)

Section Flicker.
Context {T : Type} {TO : TimeOps T} {A : Type} {Act : IActuator T A}.

(** A run without two absences in a row: a pending WAIT_TO_FLUSH is
    allowed as long as the next sample is present. *)
Lemma run_isolated_absences (samples : list (T * bool)) :
  forall c : FlushController T A,
    onset_inv c ->
    isolated_absences samples = true ->
    (state c = IDLE \/ state c = PRESENCE_DETECTED \/ state c = IN_USE \/
     (state c = WAIT_TO_FLUSH /\
      match samples with (_, false) :: _ => False | _ => True end)) ->
    exists c', run c samples = Ok c' /\
      actuator c' = actuator c /\
      flush_count (metrics c') = flush_count (metrics c) /\
      state c' <> FLUSHING /\ state c' <> COOLDOWN.
Proof.
  induction samples as [|[now_s p] rest IH]; intros c Hinv Hiso Hst.
  - exists c. cbn. repeat split; try reflexivity;
      intros E; rewrite E in Hst; intuition discriminate.
  - assert (Hnf : state c = FLUSHING ->
                  snd (flush (actuator c) now_s) = None).
    { intros E. rewrite E in Hst. exfalso.
      destruct Hst as [H|[H|[H|[H _]]]]; discriminate. }
    destruct (update_returns c now_s p Hinv Hnf) as (c1 & Hup).
    pose proof (update_ok_onset_inv _ _ _ _ Hinv Hup) as Hinv1.
    assert (Hrest : isolated_absences rest = true).
    { cbn [isolated_absences] in Hiso. destruct rest as [|[t q] r];
        [reflexivity|]. apply andb_true_iff in Hiso. apply Hiso. }
    assert (Hnext : p = false ->
                    match rest with (_, false) :: _ => False | _ => True end).
    { intros ->. cbn [isolated_absences] in Hiso.
      destruct rest as [|[t [|]] r]; auto. discriminate. }
    assert (Hstep : actuator c1 = actuator c /\
                    flush_count (metrics c1) = flush_count (metrics c) /\
                    (state c1 = IDLE \/ state c1 = PRESENCE_DETECTED \/
                     state c1 = IN_USE \/
                     (state c1 = WAIT_TO_FLUSH /\ p = false))).
    { clear IH Hinv1 Hrest Hiso. revert Hup.
      destruct Hst as [Hs|[Hs|[Hs|[Hs Hp]]]]; unfold update; rewrite Hs;
        destruct p; cbn [negb]; try contradiction;
        repeat match goal with
               | |- context [match presence_start_s c with _ => _ end] =>
                   destruct (presence_start_s c)
               | |- context [if ?b then _ else _] => destruct b
               end;
        intros E; inversion E; subst; fields; rewrite ?Hs; auto 10. }
    destruct Hstep as (Hact & Hcnt & Hst1).
    assert (Hst1' : state c1 = IDLE \/ state c1 = PRESENCE_DETECTED \/
                    state c1 = IN_USE \/
                    (state c1 = WAIT_TO_FLUSH /\
                     match rest with (_, false) :: _ => False | _ => True end))
      by (destruct Hst1 as [H|[H|[H|[H Hp]]]];
          [tauto | tauto | tauto |
           right; right; right; split; [exact H | exact (Hnext Hp)]]).
    destruct (IH c1 Hinv1 Hrest Hst1') as (c' & Hrun & Hact' & Hcnt' & Hne).
    exists c'. cbn [run]. rewrite Hup. cbn [bind].
    split; [exact Hrun|]. rewrite Hact', Hcnt'. auto.
Qed.

End Flicker.

(** Absence that never lasts two samples in a row never leads to a
    flush, whatever the thresholds: starting in IDLE, PRESENCE_DETECTED
    or IN_USE, such a run returns with the actuator and [flush_count]
    untouched and neither in FLUSHING nor in COOLDOWN. *)
Theorem single_absences_never_flush
    {T} {TO : TimeOps T} {A} {Act : IActuator T A}
    (c : FlushController T A) (samples : list (T * bool)) :
  onset_inv c ->
  state c = IDLE \/ state c = PRESENCE_DETECTED \/ state c = IN_USE ->
  isolated_absences samples = true ->
  exists c', run c samples = Ok c' /\
    actuator c' = actuator c /\
    flush_count (metrics c') = flush_count (metrics c) /\
    state c' <> FLUSHING /\ state c' <> COOLDOWN.
Proof.
  intros Hinv Hst Hiso. apply run_isolated_absences; try assumption.
  intuition.
Qed.

Lemma single_absences_never_flush_witness :
  exists c',
    run (FlushController_init (mkConfig 0 0 0)%Q (@ConsoleActuator_init Q))
        flicker = Ok c' /\
    actuator c' = [] /\
    flush_count (metrics c') = 0%Z /\
    state c' <> FLUSHING /\ state c' <> COOLDOWN.
Proof.
  apply (@single_absences_never_flush Q _ _ _
           (FlushController_init (mkConfig 0 0 0)%Q (@ConsoleActuator_init Q))
           flicker).
  - unfold onset_inv. cbn. split; reflexivity.
  - left. reflexivity.
  - reflexivity.
Defined.

(** ** The entry debounce over whole runs *)

Section MinUse.
Context {T : Type} {TO : TimeOps T} {TL : TimeLaws T}.
Context {A : Type} {Act : IActuator T A}.

Lemma update_min_use_inv (lo : T) (c c' : FlushController T A) now_s p :
  min_use_inv lo c -> (lo <=? now_s)%t = true ->
  update c now_s p = Ok c' -> min_use_inv now_s c'.
Proof.
  unfold min_use_inv. intros Hinv Hle. revert c'.
  update_branches c p; intros c' E; inversion E; subst; fields;
    try discriminate;
    try match goal with H : state _ = _ |- _ => rewrite H in * end;
    fields; try discriminate;
    try (intros _; destruct (Hinv eq_refl) as (p0 & Hs & Hgap);
         exists p0; split; [exact Hs|];
         apply gap_extends with lo; assumption).
  intros _. eexists. split; [eassumption|]. assumption.
Qed.

Lemma run_min_use_inv (samples : list (T * bool)) :
  forall (lo : T) (c c' : FlushController T A) (now_s : T),
    min_use_inv lo c ->
    Sorted (fun a b => (a <=? b)%t = true)
           (lo :: map fst samples ++ [now_s]) ->
    run c samples = Ok c' ->
    min_use_inv now_s c'.
Proof.
  induction samples as [|[t p] rest IH]; intros lo c c' now_s Hinv Hs;
    cbn [run map fst app] in *.
  - intros E; inversion E; subst c'.
    inversion Hs as [|? ? _ Hhd]; subst. inversion Hhd; subst.
    intros Hc. destruct (Hinv Hc) as (p0 & Hp0 & Hgap).
    exists p0. split; [exact Hp0|]. apply gap_extends with lo; assumption.
  - destruct (update c t p) as [c1|] eqn:Hup; cbn [bind]; [|discriminate].
    inversion Hs as [|? ? Hs' Hhd]; subst. inversion Hhd; subst.
    apply (IH t c1 c' now_s); [|exact Hs'].
    eapply update_min_use_inv; eassumption.
Qed.

End MinUse.

(** On a clock that obeys [TimeLaws], with non-decreasing timestamps
    from a fresh controller: whenever a call finds the controller in
    FLUSHING, and so invokes the actuator, the recorded presence onset
    lies [min_use_seconds] or more before that call's timestamp. *)
Theorem flush_not_before_min_use
    {T} {TO : TimeOps T} {TL : TimeLaws T} {A} {Act : IActuator T A}
    (config : Config T) (act : A) (samples : list (T * bool))
    (now_s : T) (p : bool) (c : FlushController T A) :
  nondecreasing (samples ++ [(now_s, p)]) ->
  run (FlushController_init config act) samples = Ok c ->
  state c = FLUSHING ->
  exists p0, presence_start_s c = Some p0 /\
    (now_s - p0 >=? min_use_seconds config)%t = true.
Proof.
  unfold nondecreasing. rewrite map_app. cbn [map fst].
  intros Hs Hrun Hst.
  assert (Hcfg : cfg c = config).
  { refine (run_invariant (fun d => cfg d = config) _ samples _ _ _ Hrun).
    - intros c0 t q c1 H0 Hup. rewrite (update_cfg _ _ _ _ Hup). exact H0.
    - reflexivity. }
  destruct samples as [|[t q] rest].
  - inversion Hrun; subst c. discriminate.
  - cbn [run] in Hrun.
    destruct (update (FlushController_init config act) t q) as [c1|] eqn:Hup;
      cbn [bind] in Hrun; [|discriminate].
    assert (H1 : min_use_inv t c1).
    { revert Hup. unfold update. cbn [FlushController_init state].
      destruct q; intros E; inversion E; subst; intros Hc; discriminate. }
    pose proof (run_min_use_inv rest t c1 c now_s H1 Hs Hrun) as Hinv.
    rewrite <- Hcfg. apply Hinv. rewrite Hst. reflexivity.
Qed.

Lemma flush_not_before_min_use_witness :
  exists p0, presence_start_s Points.flushing = Some p0 /\
    (5 - p0 >=? min_use_seconds Exact.cfg)%t = true.
Proof.
  exact (@flush_not_before_min_use Q _ _ _ _ Exact.cfg ConsoleActuator_init
           Points.use_then_leave 5%Q false Points.flushing
           ltac:(unfold nondecreasing; cbn; repeat (constructor; try reflexivity))
           eq_refl eq_refl).
Defined.

(** ** When [update] raises *)

(** [update] raises in exactly two situations: a present sample in
    PRESENCE_DETECTED with no onset timestamp recorded (its own
    assertion), and a call in FLUSHING whose [flush] raises (that
    exception, passed on).  Either way the state, both timestamps and
    the metrics are as before the call; every other call returns. *)
Theorem update_raises_iff
    {T} {TO : TimeOps T} {A} {Act : IActuator T A}
    (c c' : FlushController T A) (now_s : T) (p : bool) (err : PyError) :
  update c now_s p = Raise err c' <->
  (err = AssertionError /\ c' = c /\ state c = PRESENCE_DETECTED /\
   p = true /\ presence_start_s c = None) \/
  (exists e a, err = FlushRaised e /\ state c = FLUSHING /\
     flush (actuator c) now_s = (a, Some e) /\ c' = set_actuator c a).
Proof.
  split.
  - apply update_raise_cases.
  - intros [(-> & -> & Hst & -> & Hs)|(e & a & -> & Hst & Hf & ->)];
      unfold update; rewrite Hst.
    + rewrite Hs. reflexivity.
    + rewrite Hf. reflexivity.
Qed.

(** ** Thresholds of zero *)


